(** * The science layer of the CO2 balloon simulator ([app.py])

    The functions of section 1 of [app.py] are embedded in three
    readings:

    - [Exact] reads Python's [*], [/], [**] and [int] over the real
      numbers.  It is the arithmetic the formulas are meant to
      approximate, and the reading in which orderings and approximate
      figures are stated; it knows neither rounding nor overflow.
    - [Binary64] reads [*] and [/] over IEEE-754 double precision, the
      arithmetic CPython performs on [float] arguments.
    - [Python] adds Python's unbounded [int] beside its [float]: ints
      multiply exactly, are converted when they meet a float (which
      fails when they are too large), and [int()] and [** 2] behave as
      CPython implements them.

    In every reading a Python expression either returns a value or
    raises; the exceptions that the arithmetic of this module can raise
    are kept apart in [exn]. *)

From Stdlib Require Import Reals Lra Lia ZArith Floats.
From Stdlib Require Import String List Machin.

Set Warnings "-inexact-float".

(** ** Outcomes of evaluating a Python expression *)

Inductive exn : Type :=
| ZeroDivisionError
| OverflowError
| ValueError.

(** [ComplexResult] records that [**] left the real line: in Python 3 a
    negative base raised to a non-integral power is a [complex], which
    this development does not track any further. *)
Inductive outcome (A : Type) : Type :=
| Ok (a : A)
| Raise (e : exn)
| ComplexResult.

Arguments Ok {A} a.
Arguments Raise {A} e.
Arguments ComplexResult {A}.

Definition bind {A B : Type} (m : outcome A) (k : A -> outcome B) : outcome B :=
  match m with
  | Ok a => k a
  | Raise e => Raise e
  | ComplexResult => ComplexResult
  end.

Notation "x <- m ;; k" := (bind m (fun x => k))
  (at level 61, m at next level, right associativity).

(** The dictionary [{"t": ..., "m3": ...}] returned by [soda_emissions]:
    it always has exactly these two keys. *)
Record soda (T : Type) : Type := mk_soda { t : T; m3 : T }.

Arguments mk_soda {T} t m3.
Arguments t {T} s.
Arguments m3 {T} s.

(** ** Reading over the real numbers *)

Module Exact.

Local Open Scope R_scope.

(** [x / y]: true division raises on a zero divisor. *)
Definition truediv (x y : R) : outcome R :=
  if Req_dec_T y 0 then Raise ZeroDivisionError else Ok (x / y).

(** [x ** y] as [float.__pow__] decides it: a positive base is the real
    power; a zero base gives 0 for a positive exponent, 1 for a zero
    exponent and raises for a negative one; a negative base is a real
    number only when the exponent is integral. *)
Definition pow (x y : R) : outcome R :=
  if Rlt_dec 0 x then Ok (Rpower x y)
  else if Req_dec_T x 0 then
    if Rlt_dec 0 y then Ok 0
    else if Req_dec_T y 0 then Ok 1
    else Raise ZeroDivisionError
  else if Req_dec_T (IZR (Zfloor y)) y then Ok (powerRZ x (Zfloor y))
  else ComplexResult.

(** [int(x)]: truncation toward zero. *)
Definition int (x : R) : Z :=
  if Rle_dec 0 x then Zfloor x else Zceil x.

(** The body of [soda_emissions] reads the module global [WORLD_POP]
    when it is called: [soda_emissions_under w] is that body in a module
    state where the global holds [w]. *)
Definition soda_emissions_under (WORLD_POP : R)
    (litres_per_capita_yr g_co2_per_l : R) : outcome (soda R) :=
  daily_litres <- truediv (WORLD_POP * litres_per_capita_yr) 365 ;;
  let daily_g := daily_litres * g_co2_per_l in
  daily_t <- truediv daily_g 1e6 ;;
  moles <- truediv daily_g 44 ;;
  let volume_m3 := moles * 0.0224 in
  Ok (mk_soda daily_t volume_m3).

(** The module binds the three globals once, at import. *)
Definition WORLD_POP : R := 8.1e9.

Definition soda_emissions (litres_per_capita_yr g_co2_per_l : R) : outcome (soda R) :=
  soda_emissions_under WORLD_POP litres_per_capita_yr g_co2_per_l.

(** The calculator as section 4.1 of the specification words it, with
    the world population as a third argument. *)
Definition soda_emissions_spec
    (litres_per_capita_per_year grams_co2_per_litre world_population : R) : soda R :=
  let daily_litres := world_population * litres_per_capita_per_year / 365 in
  let daily_grams := daily_litres * grams_co2_per_litre in
  mk_soda (daily_grams / 1e6) (daily_grams / 44 * 0.0224).

Definition car_emissions (n_cars miles_per_day g_co2_mile : R) : outcome R :=
  truediv (n_cars * miles_per_day * g_co2_mile) 1e6.

Definition flight_emissions (n_flights t_co2_per_flight : R) : R :=
  n_flights * t_co2_per_flight.


Definition lethal_radius (daily_t nyos_mass_t nyos_radius_km : R) : outcome R :=
  q <- truediv daily_t nyos_mass_t ;;
  e <- truediv 1 3 ;;
  p <- pow q e ;;
  Ok (nyos_radius_km * p).

Definition victim_estimate (kill_r_km density lethality : R) : outcome Z :=
  sq <- pow kill_r_km 2 ;;
  let area := PI * sq in
  Ok (int (area * density * lethality)).


End Exact.

(** ** Reading over IEEE-754 binary64 *)

Module Binary64.

Local Open Scope float_scope.

(** Float division raises when the divisor compares equal to zero,
    which [-0.0] does too. *)
Definition truediv (x y : float) : outcome float :=
  if PrimFloat.eqb y 0 then Raise ZeroDivisionError else Ok (x / y).

Definition WORLD_POP : float := 8.1e9.

Definition soda_emissions (litres_per_capita_yr g_co2_per_l : float) : outcome (soda float) :=
  daily_litres <- truediv (WORLD_POP * litres_per_capita_yr) 365 ;;
  let daily_g := daily_litres * g_co2_per_l in
  daily_t <- truediv daily_g 1e6 ;;
  moles <- truediv daily_g 44 ;;
  let volume_m3 := moles * 0.0224 in
  Ok (mk_soda daily_t volume_m3).

Section Power.

(** [float ** float] is computed by the platform's C library; its
    values are not fixed here. *)
Variable float_pow : float -> float -> outcome float.

Definition lethal_radius (daily_t nyos_mass_t nyos_radius_km : float) : outcome float :=
  q <- truediv daily_t nyos_mass_t ;;
  e <- truediv 1 3 ;;
  p <- float_pow q e ;;
  Ok (nyos_radius_km * p).

End Power.

End Binary64.

(** ** Reading over Python's numbers: unbounded ints and doubles *)

Module Python.

Local Open Scope float_scope.

Inductive num : Type :=
| Int (z : Z)
| Float (f : float).

(** [float(z)] as every mixed operation applies it to an int operand:
    the nearest double, ties to even, and OverflowError ("int too large
    to convert to float") when that would be an infinity. *)
Definition float_of_int (z : Z) : outcome float :=
  match binary_normalize prec emax z 0 false with
  | S754_infinity _ => Raise OverflowError
  | sf => Ok (SF2Prim sf)
  end.

Definition to_float (x : num) : outcome float :=
  match x with
  | Float f => Ok f
  | Int z => float_of_int z
  end.

(** [x * y]: two ints multiply exactly; otherwise both operands are
    converted to double, left one first, and multiplied there.  Float
    multiplication itself never raises: it overflows to an infinity. *)
Definition mul (x y : num) : outcome num :=
  match x, y with
  | Int a, Int b => Ok (Int (a * b))
  | _, _ => a <- to_float x ;; b <- to_float y ;; Ok (Float (a * b))
  end.

(** [x / d] for a float divisor [d]: the dividend is converted, then a
    divisor equal to zero raises. *)
Definition div_float (x : num) (d : float) : outcome num :=
  a <- to_float x ;;
  if PrimFloat.eqb d 0 then Raise ZeroDivisionError else Ok (Float (a / d)).

(** [int(x)] for a float [x]: ValueError on a NaN, OverflowError on an
    infinity, otherwise the integer part, rounding toward zero. *)
Definition int_of_float (x : float) : outcome Z :=
  match Prim2SF x with
  | S754_nan => Raise ValueError
  | S754_infinity _ => Raise OverflowError
  | S754_zero _ => Ok 0%Z
  | S754_finite s m e => Ok (cond_Zopp s (Z.shiftl (Zpos m) e))
  end.

Definition int (x : num) : outcome Z :=
  match x with
  | Int z => Ok z
  | Float f => int_of_float f
  end.

(** [math.pi], the double nearest to pi. *)
Definition pi : float := 0x1.921fb54442d18p+1.

Definition car_emissions (n_cars miles_per_day g_co2_mile : num) : outcome num :=
  a <- mul n_cars miles_per_day ;;
  b <- mul a g_co2_mile ;;
  div_float b 1e6.

Definition flight_emissions (n_flights t_co2_per_flight : num) : outcome num :=
  mul n_flights t_co2_per_flight.

Section Libm.

(** The C library's [pow], which CPython calls for a float base once
    its own special cases are dealt with.  Its values are not fixed
    here. *)
Variable libm_pow : float -> float -> float.

(** [x ** 2] for a float [x], following [float_pow] at the exponent 2.0:
    a NaN is returned as it is, an infinity gives +inf, a zero gives
    0.0, a negative base is replaced by its absolute value (2 is an
    even integer), a base of absolute value 1 gives 1.0, and only then
    the library is called; an infinite result of the library is a range
    error, raised as OverflowError. *)
Definition float_pow_two (x : float) : outcome float :=
  if is_nan x then Ok x
  else if is_infinity x then Ok infinity
  else if PrimFloat.eqb x 0 then Ok 0
  else if PrimFloat.eqb (abs x) 1 then Ok 1
  else
    let r := libm_pow (abs x) 2 in
    if is_infinity r then Raise OverflowError else Ok r.

(** [x ** 2]: an int is squared exactly. *)
Definition pow_two (x : num) : outcome num :=
  match x with
  | Int z => Ok (Int (z * z))
  | Float f => sq <- float_pow_two f ;; Ok (Float sq)
  end.

Definition victim_estimate (kill_r_km density lethality : num) : outcome Z :=
  sq <- pow_two kill_r_km ;;
  area <- mul (Float pi) sq ;;
  p <- mul area density ;;
  q <- mul p lethality ;;
  int q.

End Libm.

End Python.

(** ** The Dash layer: sliders and the [update] callback

    The layout and the callback are read over the reals, like [Exact].
    Of the three values [update] returns, the numbers are kept: the six
    quantities printed in the metric block, and the data handed to the
    bar chart and to the polar plot.  The HTML and Plotly wrappers and
    the rendering of numbers as text are not part of the model. *)

Module Dash.

Import ListNotations.
Local Open Scope R_scope.
Local Open Scope string_scope.

(** A [dcc.Slider]: its [id], [min], [max], [step] and initial [value]. *)
Record slider : Type := mk_slider
  { slider_id : string;
    slider_min : R;
    slider_max : R;
    slider_step : R;
    slider_value : R }.

Definition lpc : slider := mk_slider "lpc" 5 50 0.1 23.47.
Definition gpl : slider := mk_slider "gpl" 2 10 0.1 6.
Definition cars : slider := mk_slider "cars" 1e6 20e6 1e6 10e6.
Definition miles : slider := mk_slider "miles" 5 100 1 30.
Definition flights : slider := mk_slider "flights" 1000 10000 100 6000.

(** The controls in the order the callback takes its inputs. *)
Definition controls : list slider := [lpc; gpl; cars; miles; flights].

(** A position the slider can hand to the callback. *)
Definition within (s : slider) (x : R) : Prop :=
  slider_min s <= x <= slider_max s.

(** A position the slider can be dragged to: [min] plus a whole number
    of steps. *)
Definition on_grid (s : slider) (x : R) : Prop :=
  exists k : Z, x = slider_min s + IZR k * slider_step s.



End Dash.

(** ** Vocabulary of the statements *)

(** [approx x v tol]: [x] is within [tol] of the quoted figure [v]. *)
Definition approx (x v tol : R) : Prop := (Rabs (x - v) <= tol)%R.

(** The real cube root of a non-negative number, [x^(1/3)]. *)
Definition cube_root (x : R) : R :=
  if Req_dec_T x 0 then 0%R else Rpower x (1 / 3).







(** ** Basic facts about the real reading *)

Section ExactFacts.

Local Open Scope R_scope.

Lemma truediv_nonzero (x y : R) : y <> 0 -> Exact.truediv x y = Ok (x / y).
Proof.
  intros Hy. unfold Exact.truediv.
  destruct (Req_dec_T y 0) as [E | _]; [contradiction | reflexivity].
Qed.

Lemma truediv_zero (x : R) : Exact.truediv x 0 = Raise ZeroDivisionError.
Proof.
  unfold Exact.truediv.
  destruct (Req_dec_T 0 0) as [_ | N]; [reflexivity | now elim N].
Qed.

Lemma approx_bounds (x v tol : R) : approx x v tol -> v - tol <= x <= v + tol.
Proof.
  unfold approx, Rabs. destruct (Rcase_abs (x - v)); lra.
Qed.

End ExactFacts.

(** One step of evaluation through a division whose divisor [lra] can
    tell from zero. *)
Ltac step_div := rewrite truediv_nonzero by lra; cbn [bind].

(** ** Signs in double precision *)

Section FloatSigns.

Local Open Scope float_scope.











End FloatSigns.

(** ** Emission calculators *)

Section Emissions.

Local Open Scope float_scope.

Lemma div_float_1e6 (x : Python.num) :
  Python.div_float x 1e6
  = (a <- Python.to_float x ;; Ok (Python.Float (a / 1e6))).
Proof. reflexivity. Qed.

(** A mixed product raises nothing but OverflowError. *)
Lemma mul_outcomes (x y : Python.num) :
  (exists v, Python.mul x y = Ok v) \/ Python.mul x y = Raise OverflowError.
Proof.
  assert (C : forall z, (exists f, Python.float_of_int z = Ok f)
                        \/ Python.float_of_int z = Raise OverflowError).
  { intros z. unfold Python.float_of_int.
    destruct (binary_normalize prec emax z 0 false); eauto. }
  destruct x as [a | a], y as [b | b]; cbn [Python.mul Python.to_float bind].
  - eauto.
  - destruct (C a) as [[f ->] | ->]; cbn [bind]; eauto.
  - destruct (C b) as [[f ->] | ->]; cbn [bind]; eauto.
  - eauto.
Qed.

(** C2 (as stated, refuted).  The fleet size is a Python int, and an int
    too large for a double makes the call raise:
    [car_emissions(10**400, 1, 1)] is an OverflowError, and so is
    [car_emissions(10**400, 1.0, 1.0)]. *)
Lemma car_emissions_overflows :
  Python.car_emissions (Python.Int (10 ^ 400)) (Python.Int 1) (Python.Int 1)
  = Raise OverflowError
  /\ Python.car_emissions (Python.Int (10 ^ 400)) (Python.Float 1) (Python.Float 1)
     = Raise OverflowError.
Proof. split; vm_compute; reflexivity. Qed.

(** C2 (amended).  [car_emissions] returns
    fleet size x miles x grams per mile / 1e6 in double precision.  With
    float arguments it never fails.  Int arguments are multiplied
    exactly and converted to a double when they meet a float, at the
    latest at the division by 1e6; the call raises OverflowError when
    such an int is too large for a double, and nothing else.  At
    (10e6, 30, 318) the result is exactly 95400.0; at the ints
    (94906267, 94906267, 318) the exact product is rounded once, which
    gives 2864289446048.342. *)
Theorem car_emissions_double_precision :
  (forall n_cars miles g : float,
      Python.car_emissions (Python.Float n_cars) (Python.Float miles) (Python.Float g)
      = Ok (Python.Float (n_cars * miles * g / 1e6)))
  /\ (forall n_cars miles g : Z,
         Python.car_emissions (Python.Int n_cars) (Python.Int miles) (Python.Int g)
         = (f <- Python.float_of_int (n_cars * miles * g) ;;
            Ok (Python.Float (f / 1e6))))
  /\ (forall (n_cars : Z) (miles g : float),
         Python.car_emissions (Python.Int n_cars) (Python.Float miles) (Python.Float g)
         = (f <- Python.float_of_int n_cars ;;
            Ok (Python.Float (f * miles * g / 1e6))))
  /\ (forall x y z : Python.num,
         (exists f, Python.car_emissions x y z = Ok (Python.Float f))
         \/ Python.car_emissions x y z = Raise OverflowError)
  /\ Python.car_emissions (Python.Float 10e6) (Python.Int 30) (Python.Int 318)
     = Ok (Python.Float 95400)
  /\ Python.car_emissions (Python.Int 10000000) (Python.Int 30) (Python.Int 318)
     = Ok (Python.Float 95400)
  /\ Python.car_emissions (Python.Int 94906267) (Python.Int 94906267) (Python.Int 318)
     = Ok (Python.Float 2864289446048.342).
Proof.
  split; [ | split; [ | split; [ | split; [ | split; [ | split]]]]].
  - intros. reflexivity.
  - intros. reflexivity.
  - intros n m g. unfold Python.car_emissions.
    cbn [Python.mul Python.to_float].
    destruct (Python.float_of_int n) as [f | e | ]; reflexivity.
  - intros x y z. unfold Python.car_emissions.
    destruct (mul_outcomes x y) as [[v ->] | ->]; cbn [bind]; [ | now right].
    destruct (mul_outcomes v z) as [[w ->] | ->]; cbn [bind]; [ | now right].
    rewrite div_float_1e6.
    destruct (mul_outcomes w (Python.Float 1)) as [[u E] | E].
    + left. destruct w as [c | c]; cbn [Python.to_float bind].
      * cbn [Python.mul Python.to_float bind] in E.
        destruct (Python.float_of_int c) as [f | e | ]; cbn [bind] in *;
          [eauto | discriminate | discriminate].
      * eauto.
    + right. destruct w as [c | c]; cbn [Python.mul Python.to_float bind] in *.
      * destruct (Python.float_of_int c) as [f | e | ]; cbn [bind] in *;
          [discriminate | exact E | discriminate].
      * discriminate.
  - vm_compute. reflexivity.
  - vm_compute. reflexivity.
  - vm_compute. reflexivity.
Qed.

(** C3 (as stated, refuted).  The flight count is a Python int:
    [flight_emissions(10**400, 11.37)] raises OverflowError. *)
Lemma flight_emissions_overflows :
  Python.flight_emissions (Python.Int (10 ^ 400)) (Python.Float 11.37)
  = Raise OverflowError.
Proof. vm_compute. reflexivity. Qed.

(** C3 (amended).  [flight_emissions] returns
    flight count x tonnes per flight: the exact product when both are
    ints, the double-precision product otherwise.  It never fails on
    floats or on ints alone; with an int and a float it raises
    OverflowError when the int is too large for a double, and nothing
    else.  At (6000, 11.37) the result is exactly 68220.0. *)
Theorem flight_emissions_double_precision :
  (forall n_flights tonnes : float,
      Python.flight_emissions (Python.Float n_flights) (Python.Float tonnes)
      = Ok (Python.Float (n_flights * tonnes)))
  /\ (forall n_flights tonnes : Z,
         Python.flight_emissions (Python.Int n_flights) (Python.Int tonnes)
         = Ok (Python.Int (n_flights * tonnes)))
  /\ (forall (n_flights : Z) (tonnes : float),
         Python.flight_emissions (Python.Int n_flights) (Python.Float tonnes)
         = (f <- Python.float_of_int n_flights ;; Ok (Python.Float (f * tonnes))))
  /\ (forall x y : Python.num,
         (exists v, Python.flight_emissions x y = Ok v)
         \/ Python.flight_emissions x y = Raise OverflowError)
  /\ Python.flight_emissions (Python.Int 6000) (Python.Float 11.37)
     = Ok (Python.Float 68220)
  /\ Python.flight_emissions (Python.Float 6000) (Python.Float 11.37)
     = Ok (Python.Float 68220).
Proof.
  split; [ | split; [ | split; [ | split; [ | split]]]].
  - intros. reflexivity.
  - intros. reflexivity.
  - intros n x. unfold Python.flight_emissions.
    cbn [Python.mul Python.to_float].
    destruct (Python.float_of_int n) as [f | e | ]; reflexivity.
  - intros x y. apply mul_outcomes.
  - vm_compute. reflexivity.
  - vm_compute. reflexivity.
Qed.

End Emissions.

(** ** The soda calculator *)

Section Soda.

Local Open Scope R_scope.

Lemma soda_emissions_under_eq (w l g : R) :
  Exact.soda_emissions_under w l g = Ok (Exact.soda_emissions_spec l g w).
Proof.
  unfold Exact.soda_emissions_under, Exact.soda_emissions_spec.
  do 3 step_div. reflexivity.
Qed.

Lemma soda_emissions_eq (l g : R) :
  Exact.soda_emissions l g
  = Ok (mk_soda (8.1e9 * l / 365 * g / 1e6) (8.1e9 * l / 365 * g / 44 * 0.0224)).
Proof.
  unfold Exact.soda_emissions. rewrite soda_emissions_under_eq. reflexivity.
Qed.

(** C1 (as stated, refuted).  At litres_per_capita = 23.47 and
    g_per_l = 6, with the population 8.1e9 the module fixes, the daily
    mass is not within 1 % of 798,771 tonnes and the daily volume is not
    within 1 % of 406,651,126 cubic metres. *)
Lemma soda_scenario_figures_refuted :
  exists s, Exact.soda_emissions 23.47 6 = Ok s
            /\ ~ approx (t s) 798771 7987.71
            /\ ~ approx (m3 s) 406651126 4066511.26.
Proof.
  eexists. split; [apply soda_emissions_eq | ]. cbn [t m3].
  unfold approx. split; intros H.
  - rewrite Rabs_left in H by lra. lra.
  - rewrite Rabs_left in H by lra. lra.
Qed.

(** C1 (amended).  [soda_emissions] computes
    daily_litres = population x per-capita rate / 365 and
    daily_grams = daily_litres x grams per litre, and returns
    daily_grams / 1e6 tonnes and (daily_grams / 44) x 0.0224 cubic
    metres, without ever raising.  At litres_per_capita = 23.47 and
    g_per_l = 6 this is about 3,125.05 tonnes and about 1,590,933 cubic
    metres; in binary64 the two floats are 3125.046575342466 and
    1590932.8019925279. *)
Theorem soda_emissions_formula_and_scenario :
  (forall litres_per_capita g_per_l : R,
      let daily_litres := Exact.WORLD_POP * litres_per_capita / 365 in
      let daily_grams := daily_litres * g_per_l in
      Exact.soda_emissions litres_per_capita g_per_l
      = Ok (mk_soda (daily_grams / 1e6) (daily_grams / 44 * 0.0224)))
  /\ (exists s, Exact.soda_emissions 23.47 6 = Ok s
                /\ approx (t s) 3125.05 0.01
                /\ approx (m3 s) 1590933 1)
  /\ Binary64.soda_emissions 23.47%float 6%float
     = Ok (mk_soda 3125.046575342466%float 1590932.8019925279%float).
Proof.
  split; [ | split].
  - intros l g. cbv zeta. unfold Exact.WORLD_POP. apply soda_emissions_eq.
  - eexists. split; [apply soda_emissions_eq | ]. cbn [t m3].
    unfold approx. split; apply Rabs_le; lra.
  - vm_compute. reflexivity.
Qed.

End Soda.

Section SodaScaling.

Local Open Scope R_scope.






(** C10.  [soda_emissions] is a function of two arguments, the litres
    per capita per year and the grams of CO2 per litre.  The population
    it multiplies by is the module constant 8.1e9: its result is the
    three-argument calculator of the specification at that population,
    and differs from it at another one (8.0e9, say), which no choice of
    arguments lets the caller select. *)
Theorem soda_emissions_population_fixed :
  Exact.WORLD_POP = 8.1e9
  /\ Binary64.WORLD_POP = 8.1e9%float
  /\ (forall l g : R,
        (Exact.soda_emissions : R -> R -> outcome (soda R)) l g
        = Ok (Exact.soda_emissions_spec l g 8.1e9))
  /\ (forall l g : R,
        Exact.soda_emissions l g = Exact.soda_emissions_under 8.1e9 l g)
  /\ Exact.soda_emissions 23.47 6 <> Ok (Exact.soda_emissions_spec 23.47 6 8.0e9).
Proof.
  split; [reflexivity | split; [reflexivity | split; [ | split]]].
  - intros l g. unfold Exact.soda_emissions, Exact.WORLD_POP.
    apply soda_emissions_under_eq.
  - reflexivity.
  - rewrite soda_emissions_eq. unfold Exact.soda_emissions_spec.
    intros E. injection E as Et _. lra.
Qed.

End SodaScaling.

(** ** Facts about [**] over the reals *)

Section PowFacts.

Local Open Scope R_scope.

Lemma pow_pos_base (x y : R) : 0 < x -> Exact.pow x y = Ok (Rpower x y).
Proof.
  intros Hx. unfold Exact.pow.
  destruct (Rlt_dec 0 x) as [_ | N]; [reflexivity | contradiction].
Qed.

Lemma pow_zero_base (y : R) : 0 < y -> Exact.pow 0 y = Ok 0.
Proof.
  intros Hy. unfold Exact.pow.
  destruct (Rlt_dec 0 0) as [A | _]; [lra | ].
  destruct (Req_dec_T 0 0) as [_ | N]; [ | now elim N].
  destruct (Rlt_dec 0 y) as [_ | N]; [reflexivity | contradiction].
Qed.

Lemma truediv_third : Exact.truediv 1 3 = Ok (1 / 3).
Proof. apply truediv_nonzero. lra. Qed.

Lemma Rpower_one (y : R) : Rpower 1 y = 1.
Proof. unfold Rpower. rewrite ln_1, Rmult_0_r. apply exp_0. Qed.

Lemma Rpower_third_pos (x : R) : 0 < Rpower x (1 / 3).
Proof. unfold Rpower. apply exp_pos. Qed.

(** The real power with exponent 1/3 is the cube root. *)
Lemma Rpower_third_cube (x : R) : 0 < x -> Rpower x (1 / 3) ^ 3 = x.
Proof.
  intros Hx.
  rewrite <- (Rpower_pow 3 _ (Rpower_third_pos x)).
  rewrite Rpower_mult.
  replace (1 / 3 * INR 3) with 1 by (simpl; lra).
  apply Rpower_1, Hx.
Qed.

Lemma cube_lt_inv (a b : R) : 0 <= a -> 0 <= b -> a ^ 3 < b ^ 3 -> a < b.
Proof.
  intros Ha Hb H.
  destruct (Rlt_le_dec a b) as [L | G]; [exact L | exfalso].
  assert (b ^ 3 <= a ^ 3) by (apply pow_incr; split; assumption).
  lra.
Qed.

Lemma cube_root_zero : cube_root 0 = 0.
Proof.
  unfold cube_root. destruct (Req_dec_T 0 0) as [_ | N]; [reflexivity | now elim N].
Qed.

Lemma cube_root_one : cube_root 1 = 1.
Proof.
  unfold cube_root. destruct (Req_dec_T 1 0) as [Z | _]; [lra | apply Rpower_one].
Qed.

Lemma cube_root_pos (x : R) : 0 < x -> cube_root x = Rpower x (1 / 3).
Proof.
  intros Hx. unfold cube_root. destruct (Req_dec_T x 0) as [Z | _]; [lra | reflexivity].
Qed.

(** [cube_root] is the cube root: non-negative, and its cube is [x]. *)
Lemma cube_root_spec (x : R) : 0 <= x -> 0 <= cube_root x /\ cube_root x ^ 3 = x.
Proof.
  intros Hx. destruct (Rle_lt_or_eq_dec 0 x Hx) as [P | Z].
  - rewrite cube_root_pos by assumption. split.
    + apply Rlt_le, Rpower_third_pos.
    + apply Rpower_third_cube, P.
  - subst x. rewrite cube_root_zero. split; lra.
Qed.

(** Raising a non-negative base to the power 1/3 takes its cube root. *)
Lemma pow_third (x : R) : 0 <= x -> Exact.pow x (1 / 3) = Ok (cube_root x).
Proof.
  intros Hx. destruct (Rle_lt_or_eq_dec 0 x Hx) as [P | Z].
  - rewrite cube_root_pos by assumption. apply pow_pos_base, P.
  - subst x. rewrite cube_root_zero. apply pow_zero_base. lra.
Qed.

(** Squaring through [**]: the exponent 2 is integral, so every base,
    negative ones included, has a real square. *)
Lemma pow_two (x : R) : Exact.pow x 2 = Ok (x ^ 2).
Proof.
  unfold Exact.pow.
  destruct (Rlt_dec 0 x) as [P | NP].
  - f_equal. replace 2 with (INR 2) by (simpl; lra). apply Rpower_pow, P.
  - destruct (Req_dec_T x 0) as [Z | NZ].
    + destruct (Rlt_dec 0 2) as [_ | N]; [ | lra]. subst x. f_equal. lra.
    + rewrite ZfloorZ.
      destruct (Req_dec_T 2 2) as [_ | N]; [reflexivity | now elim N].
Qed.

End PowFacts.

(** ** The Nyos cube-root scaling *)

Section LethalRadius.

Local Open Scope R_scope.

Lemma lethal_radius_eq (m M r : R) :
  0 <= m / M -> M <> 0 ->
  Exact.lethal_radius m M r = Ok (r * cube_root (m / M)).
Proof.
  intros Hq HM. unfold Exact.lethal_radius.
  rewrite truediv_nonzero by assumption. cbn [bind].
  rewrite truediv_third. cbn [bind].
  rewrite pow_third by assumption. reflexivity.
Qed.


(** C9.  A zero reference mass makes the division inside
    [lethal_radius] raise ZeroDivisionError, and that exception is the
    outcome of the call itself: nothing catches or translates it.  In
    binary64 this holds for both zeros and whatever the C library's
    power function does.  The function checks nothing else either:
    negative masses are accepted and scaled like any other. *)
Theorem lethal_radius_zero_reference_raises :
  (forall daily_t radius : R,
      Exact.lethal_radius daily_t 0 radius = Raise ZeroDivisionError)
  /\ (forall (float_pow : float -> float -> outcome float) (daily_t radius : float),
         Binary64.lethal_radius float_pow daily_t 0%float radius
         = Raise ZeroDivisionError
         /\ Binary64.lethal_radius float_pow daily_t (- 0)%float radius
            = Raise ZeroDivisionError)
  /\ Exact.lethal_radius (-1) (-1) 5 = Ok 5.
Proof.
  split; [ | split].
  - intros d r. unfold Exact.lethal_radius. rewrite truediv_zero. reflexivity.
  - intros pw d r. split; reflexivity.
  - assert (Q : -1 / -1 = 1) by (field; lra).
    rewrite lethal_radius_eq by lra.
    rewrite Q, cube_root_one. f_equal. lra.
Qed.



Lemma lethal_radius_scenario_value :
  exists r, Exact.lethal_radius 798771 1.6e6 25 = Ok r /\ 19.82 < r < 19.84.
Proof.
  assert (Q : 0 <= 798771 / 1.6e6) by lra.
  eexists. split; [apply lethal_radius_eq; lra | ].
  destruct (cube_root_spec _ Q) as [Hc Hc3].
  set (c := cube_root (798771 / 1.6e6)) in *.
  assert (L : 0.7928 < c) by (apply cube_lt_inv; lra).
  assert (U : c < 0.7936) by (apply cube_lt_inv; lra).
  lra.
Qed.

(** C8 (as stated, refuted).  [lethal_radius(798771, 1.6e6, 25)] is not
    21.1 km to the one decimal the figure is quoted with. *)
Lemma lethal_radius_scenario_refuted :
  ~ exists r, Exact.lethal_radius 798771 1.6e6 25 = Ok r /\ approx r 21.1 0.05.
Proof.
  intros [r [E A]].
  destruct lethal_radius_scenario_value as [r' [E' B]].
  rewrite E in E'. injection E' as <-.
  apply approx_bounds in A. lra.
Qed.

(** C8 (amended).  [lethal_radius(798771, 1.6e6, 25)] is approximately
    19.8 km: it lies between 19.82 and 19.84. *)
Theorem lethal_radius_scenario :
  exists r, Exact.lethal_radius 798771 1.6e6 25 = Ok r
            /\ approx r 19.83 0.01 /\ approx r 19.8 0.05.
Proof.
  destruct lethal_radius_scenario_value as [r [E B]].
  exists r. split; [exact E | ].
  unfold approx. split; apply Rabs_le; lra.
Qed.

End LethalRadius.

(** ** Sphere sizing *)

Section SphereDiameter.

Local Open Scope R_scope.






End SphereDiameter.

(** ** Casualty estimate *)

Section VictimEstimate.

Local Open Scope R_scope.












End VictimEstimate.

(** ** Further properties of the science layer *)

Section CubeRoot.

Local Open Scope R_scope.




End CubeRoot.

Section SphereDiameterMore.

Local Open Scope R_scope.


End SphereDiameterMore.

Section VictimEstimateMore.

Local Open Scope R_scope.




End VictimEstimateMore.

(** ** The [update] callback *)

Section Update.

Import ListNotations.
Local Open Scope R_scope.




End Update.

Section UpdateProperties.

Import ListNotations.
Local Open Scope R_scope.





End UpdateProperties.

Section UpdateBounds.

Local Open Scope R_scope.








End UpdateBounds.

(** ** The slider controls *)

Section Controls.

Local Open Scope R_scope.

Lemma on_grid_steps (s : Dash.slider) (k : Z) (x : R) :
  x = Dash.slider_min s + IZR k * Dash.slider_step s -> Dash.on_grid s x.
Proof. intros E. exists k. exact E. Qed.

(** X18.  The five sliders are well formed: each has [min < max], a
    positive step that divides the range into a whole number of steps,
    and an initial value inside the range.  The initial value sits on
    the step grid for four of them; the per-capita slider starts at
    23.47, which is not 5 plus a whole number of steps of 0.1. *)
Theorem controls_well_formed :
  Forall (fun s => Dash.slider_min s < Dash.slider_max s
                   /\ 0 < Dash.slider_step s
                   /\ Dash.on_grid s (Dash.slider_max s)
                   /\ Dash.within s (Dash.slider_value s))
         Dash.controls
  /\ Forall (fun s => Dash.on_grid s (Dash.slider_value s))
            (tl Dash.controls)
  /\ ~ Dash.on_grid Dash.lpc (Dash.slider_value Dash.lpc).
Proof.
  split; [ | split].
  - unfold Dash.controls.
    repeat (apply Forall_cons; [ | ]); try apply Forall_nil;
      unfold Dash.within; cbn;
      (split; [lra | split; [lra | split; [ | lra]]]).
    + apply (on_grid_steps _ 450). cbn. lra.
    + apply (on_grid_steps _ 80). cbn. lra.
    + apply (on_grid_steps _ 19). cbn. lra.
    + apply (on_grid_steps _ 95). cbn. lra.
    + apply (on_grid_steps _ 90). cbn. lra.
  - unfold Dash.controls. cbn [tl].
    repeat (apply Forall_cons; [ | ]); try apply Forall_nil.
    + apply (on_grid_steps _ 40). cbn. lra.
    + apply (on_grid_steps _ 9). cbn. lra.
    + apply (on_grid_steps _ 25). cbn. lra.
    + apply (on_grid_steps _ 50). cbn. lra.
  - intros [k E]. cbn in E.
    assert (L : IZR 184 < IZR k) by lra.
    assert (U : IZR k < IZR 185) by lra.
    apply lt_IZR in L. apply lt_IZR in U. lia.
Qed.

End Controls.
